(** * Room registry and stream-session tracker of [backend/main.py]

    A shallow embedding of the FastAPI handlers that manage the two
    process-wide tables [rooms_db] and [active_streams], and the
    properties of the room/session lifecycle proved about them.

    Modelling decisions:
    - a Python [dict] that is iterated ([rooms_db]) is an association list
      in insertion order with the dict's update discipline; a dict that is
      only indexed ([active_streams]) is a [gmap];
    - [datetime] values are abstract integer timestamps; the results of
      [uuid.uuid4()], [secrets.token_urlsafe(32)] and [datetime.utcnow()]
      are arguments of the handler that calls them;
    - a handler is a function from the state of the two tables to a result
      (a returned value or a raised exception) and the state it leaves;
    - the outcome of [await request.form()] (the parsed form, or the
      framework's 400 error for a body it refuses) is part of the raw
      request; the handlers past that statement take the parsed form;
    - [print] calls and the rest of the HTTP framing are not modelled. *)

From stdpp Require Import gmap strings list fin_maps pretty.

Open Scope string_scope.
Open Scope list_scope.

(** ** Data models *)

Definition datetime := Z.
Bind Scope Z_scope with datetime.

Module Room.
Record t := mk {
  room_id : string;
  stream_key : string;
  title : string;
  created_at : datetime;
  is_active : bool;
  viewer_count : Z
}.

(** The attribute assignment [room.is_active = b]. *)
Definition set_is_active (b : bool) (r : t) : t :=
  mk (room_id r) (stream_key r) (title r) (created_at r) b (viewer_count r).
End Room.

Module CreateRoomRequest.
Record t := mk {
  title : string;
  description : option string
}.
End CreateRoomRequest.

Module RoomResponse.
Record t := mk {
  room_id : string;
  stream_key : string;
  title : string;
  rtmp_url : string;
  viewer_url : string;
  qr_code : string;
  created_at : datetime;
  is_active : bool;
  viewer_count : Z
}.
End RoomResponse.

(** The dictionary returned by [get_stream_status]. *)
Module StreamStatus.
Record t := mk {
  stream_key : string;
  is_active : bool;
  started_at : option datetime
}.
End StreamStatus.

(** One element of the list returned by [list_rooms]. *)
Module RoomSummary.
Record t := mk {
  room_id : string;
  title : string;
  created_at : datetime;
  is_active : bool;
  viewer_count : Z
}.
End RoomSummary.

(** The dictionary returned by [get_room_stream_url]. *)
Module StreamUrl.
Record t := mk {
  room_id : string;
  hls_url : string;
  is_active : bool;
  title : string
}.
End StreamUrl.

(** A JSON object with string members, as a Python dict literal. *)
Abbreviation json_object := (list (string * string)).

(** A [JSONResponse] carrying such an object. *)
Inductive JSONResponse := mkJSONResponse (content : json_object).

(** The part of a webhook [Request] the handlers read once its body is
    parsed: its form, one string per field; [form_data.get("name")] is the
    lookup of ["name"], Python's [None] when the field is missing. *)
Record Request := mkRequest { form : gmap string string }.

(** What a handler can raise. *)
Inductive Exception :=
| HTTPException (status_code : nat) (detail : string)
| KeyError (key : string).

(** ** Insertion-ordered dictionaries with string keys *)

Abbreviation dict V := (list (string * V)).

Section dict.
Context {V : Type}.

(** [key in d] *)
Definition contains (key : string) (d : dict V) : bool :=
  bool_decide (key ∈ d.*1).

(** [d[key]], [None] standing for the [KeyError]. *)
Fixpoint getitem (key : string) (d : dict V) : option V :=
  match d with
  | [] => None
  | (k, v) :: d' => if decide (k = key) then Some v else getitem key d'
  end.

(** [d[key] = v]: an existing key keeps its position, a new one goes last. *)
Fixpoint setitem (key : string) (v : V) (d : dict V) : dict V :=
  match d with
  | [] => [(key, v)]
  | (k, w) :: d' =>
      if decide (k = key) then (k, v) :: d' else (k, w) :: setitem key v d'
  end.

(** [del d[key]] for a key that is present: the entry under [key] goes,
    the others keep their order. *)
Definition delitem (key : string) (d : dict V) : dict V :=
  filter (λ e, e.1 ≠ key) d.

(** [d.values()], in iteration order. *)
Definition values (d : dict V) : list V := d.*2.

(** Mutation, through a reference, of the object that is the [i]-th value. *)
Definition mutate_value (f : V → V) (i : nat) (d : dict V) : dict V :=
  alter (prod_map id f) i d.

(** A Python dict holds each key once. *)
Definition dict_wf (d : dict V) : Prop := NoDup d.*1.
End dict.

(** ** Process state and the handler monad *)

Record State := mkState {
  rooms_db : dict Room.t;
  active_streams : gmap (option string) datetime
}.

Definition initial_state : State := mkState [] ∅.

Definition Handler (A : Type) : Type := State → (Exception + A) * State.

Definition raise {A} (e : Exception) : Handler A := λ st, (inl e, st).

Global Instance Handler_ret : MRet Handler := λ A a st, (inr a, st).

Global Instance Handler_bind : MBind Handler := λ A B k m st,
  match m st with
  | (inl e, st') => (inl e, st')
  | (inr a, st') => k a st'
  end.

Definition read_rooms : Handler (dict Room.t) := λ st, (inr (rooms_db st), st).

Definition write_rooms (rooms : dict Room.t) : Handler unit :=
  λ st, (inr tt, mkState rooms (active_streams st)).

Definition read_streams : Handler (gmap (option string) datetime) :=
  λ st, (inr (active_streams st), st).

Definition write_streams (streams : gmap (option string) datetime) : Handler unit :=
  λ st, (inr tt, mkState (rooms_db st) streams).

(** [rooms_db[room_id]] as an expression. *)
Definition rooms_getitem (room_id : string) : Handler Room.t :=
  rooms ← read_rooms;
  match getitem room_id rooms with
  | Some room => mret room
  | None => raise (KeyError room_id)
  end.

(** [del rooms_db[room_id]] *)
Definition rooms_delitem (room_id : string) : Handler unit :=
  rooms ← read_rooms;
  if contains room_id rooms then write_rooms (delitem room_id rooms)
  else raise (KeyError room_id).

(** ** Handlers *)

Definition server_host : string := "tilsync.nu.edu.kz".
Definition rtmp_port : Z := 443.

Definition rtmp_url_of (stream_key : string) : string :=
  "rtmp://" +:+ server_host +:+ ":" +:+ pretty rtmp_port +:+ "/live/" +:+ stream_key.

Definition viewer_url_of (room_id : string) : string :=
  "https://tilsync.nu.edu.kz/broadcast/client/room/" +:+ room_id.

Section registry.
(** The QR encoder of the [qrcode] library, a function from the URL to
    the data-URI of the image. *)
Variable generate_qr_code : string → string.

Definition room_response (room : Room.t) (rtmp_url viewer_url qr_code : string)
  : RoomResponse.t :=
  RoomResponse.mk (Room.room_id room) (Room.stream_key room) (Room.title room)
    rtmp_url viewer_url qr_code
    (Room.created_at room) (Room.is_active room) (Room.viewer_count room).

(** [POST /api/rooms]; [uuid4], [token] and [utcnow] are the values drawn
    by [uuid.uuid4()], [secrets.token_urlsafe(32)] and [datetime.utcnow()]. *)
Definition create_room (uuid4 token : string) (utcnow : datetime)
    (request : CreateRoomRequest.t) : Handler RoomResponse.t :=
  let room_id := uuid4 in
  let stream_key := token in
  let room :=
    Room.mk room_id stream_key (CreateRoomRequest.title request) utcnow false 0 in
  rooms ← read_rooms;
  write_rooms (setitem room_id room rooms);;
  let rtmp_url := rtmp_url_of stream_key in
  let viewer_url := viewer_url_of room_id in
  let qr_code := generate_qr_code viewer_url in
  mret (room_response room rtmp_url viewer_url qr_code).

(** [GET /api/rooms/{room_id}] *)
Definition get_room (room_id : string) : Handler RoomResponse.t :=
  rooms ← read_rooms;
  if negb (contains room_id rooms)
  then raise (HTTPException 404 "Room not found")
  else
    room ← rooms_getitem room_id;
    let rtmp_url := rtmp_url_of (Room.stream_key room) in
    let viewer_url := viewer_url_of room_id in
    let qr_code := generate_qr_code viewer_url in
    mret (room_response room rtmp_url viewer_url qr_code).
End registry.

(** [GET /api/rooms] *)
Definition list_rooms : Handler (list RoomSummary.t) :=
  rooms ← read_rooms;
  mret ((λ room, RoomSummary.mk (Room.room_id room) (Room.title room)
                  (Room.created_at room) (Room.is_active room)
                  (Room.viewer_count room)) <$> values rooms).

(** [DELETE /api/rooms/{room_id}] *)
Definition delete_room (room_id : string) : Handler json_object :=
  rooms ← read_rooms;
  if negb (contains room_id rooms)
  then raise (HTTPException 404 "Room not found")
  else
    rooms_delitem room_id;;
    mret [("message", "Room deleted successfully")].

(** The scan [for r in rooms_db.values(): if r.stream_key == stream_key:
    room = r; break]. The result is the reference to the room found, that
    is its position among the values and the object there; [None] when the
    loop ends without a match. A missing form field ([stream_key] is
    Python's [None]) equals no room's key. *)
Definition find_room (stream_key : option string) (rooms : dict Room.t)
  : option (nat * Room.t) :=
  list_find (λ r, Some (Room.stream_key r) = stream_key) (values rooms).

(** [POST /webhooks/stream_start], past its first statement: [request]
    holds the form that [await request.form()] returned (the handler from
    that statement on is [Endpoint.stream_start_webhook]). The test
    [if room:] succeeds exactly
    when the scan found a room (a model instance is truthy); the assignment
    [room.is_active = True] then updates, in place, the object the dict
    holds at the position where the scan stopped. *)
Definition stream_start_webhook (request : Request) (utcnow : datetime)
  : Handler JSONResponse :=
  let stream_key := form request !! "name" in
  rooms ← read_rooms;
  match find_room stream_key rooms with
  | Some (i, _) =>
      write_rooms (mutate_value (Room.set_is_active true) i rooms);;
      streams ← read_streams;
      write_streams (<[stream_key := utcnow]> streams)
  | None => mret tt
  end;;
  mret (mkJSONResponse [("status", "ok")]).

(** [POST /webhooks/stream_end], past its first statement as above (the
    handler from that statement on is [Endpoint.stream_end_webhook]); the
    session is deleted inside the same [if room:] block. *)
Definition stream_end_webhook (request : Request) : Handler JSONResponse :=
  let stream_key := form request !! "name" in
  rooms ← read_rooms;
  match find_room stream_key rooms with
  | Some (i, _) =>
      write_rooms (mutate_value (Room.set_is_active false) i rooms);;
      streams ← read_streams;
      if bool_decide (is_Some (streams !! stream_key))
      then write_streams (delete stream_key streams)
      else mret tt
  | None => mret tt
  end;;
  mret (mkJSONResponse [("status", "ok")]).

(** [GET /api/stream/{stream_key}/status] *)
Definition get_stream_status (stream_key : string) : Handler StreamStatus.t :=
  streams ← read_streams;
  let is_active := bool_decide (is_Some (streams !! Some stream_key)) in
  mret (StreamStatus.mk stream_key is_active
         (if is_active then streams !! Some stream_key else None)).

(** [GET /api/room/{room_id}/stream-url] *)
Definition get_room_stream_url (room_id : string) : Handler StreamUrl.t :=
  rooms ← read_rooms;
  if negb (contains room_id rooms)
  then raise (HTTPException 404 "Room not found")
  else
    room ← rooms_getitem room_id;
    let hls_url := "/broadcast/client/hls/" +:+ Room.stream_key room +:+ ".m3u8" in
    mret (StreamUrl.mk room_id hls_url (Room.is_active room) (Room.title room)).

(** ** Sequences of requests *)

Inductive Op :=
| CreateRoom (uuid4 token : string) (utcnow : datetime) (request : CreateRoomRequest.t)
| GetRoom (room_id : string)
| ListRooms
| DeleteRoom (room_id : string)
| StreamStart (request : Request) (utcnow : datetime)
| StreamEnd (request : Request)
| GetStreamStatus (stream_key : string)
| GetRoomStreamUrl (room_id : string).

Section run.
Variable generate_qr_code : string → string.

(** The state a request leaves, whether it returned or raised. *)
Definition step (st : State) (op : Op) : State :=
  match op with
  | CreateRoom uuid4 token utcnow request =>
      (create_room generate_qr_code uuid4 token utcnow request st).2
  | GetRoom room_id => (get_room generate_qr_code room_id st).2
  | ListRooms => (list_rooms st).2
  | DeleteRoom room_id => (delete_room room_id st).2
  | StreamStart request utcnow => (stream_start_webhook request utcnow st).2
  | StreamEnd request => (stream_end_webhook request st).2
  | GetStreamStatus stream_key => (get_stream_status stream_key st).2
  | GetRoomStreamUrl room_id => (get_room_stream_url room_id st).2
  end.

Definition run (ops : list Op) (st : State) : State := foldl step st ops.
End run.

(** A webhook request whose form carries [name=k] and nothing else. *)
Definition notification (k : string) : Request := mkRequest {[ "name" := k ]}.

(** ** Predicates of the specification *)

(** Some room of the registry has stream key [k]. *)
Definition owned (k : string) (st : State) : Prop :=
  ∃ r, r ∈ values (rooms_db st) ∧ Room.stream_key r = k.

(** Every room is stored under its own [room_id], once. *)
Definition room_ids_unique (st : State) : Prop :=
  (dict_wf (rooms_db st)) ∧
  (Forall (λ e, Room.room_id e.2 = e.1) (rooms_db st)).

(** No two rooms share a stream key. *)
Definition stream_keys_unique (st : State) : Prop :=
  NoDup (Room.stream_key <$> values (rooms_db st)).

(** The identifiers drawn by a creation collide with no room of [st]. *)
Definition fresh_ids (uuid4 token : string) (st : State) : Prop :=
  (uuid4 ∉ (rooms_db st).*1) ∧
  (token ∉ Room.stream_key <$> values (rooms_db st)).

(** Every creation of the sequence draws identifiers that are fresh when
    it runs. *)
Fixpoint fresh_run (qr : string → string) (ops : list Op) (st : State) : Prop :=
  match ops with
  | [] => True
  | op :: ops' =>
      match op with
      | CreateRoom uuid4 token _ _ => fresh_ids uuid4 token st
      | _ => True
      end ∧ fresh_run qr ops' (step qr st op)
  end.

(** [rooms'] is [rooms] except, at most, for the [is_active] flag of the
    first room, in iteration order, whose stream key is [key]. *)
Definition changes_only_first_match (key : option string)
    (rooms rooms' : dict Room.t) : Prop :=
  length rooms' = length rooms ∧
  ∀ j e, rooms !! j = Some e → rooms' !! j ≠ Some e →
    Some (Room.stream_key e.2) = key ∧
    (∀ j' e', j' < j → rooms !! j' = Some e' → Some (Room.stream_key e'.2) ≠ key) ∧
    ∃ b, rooms' !! j = Some (e.1, Room.set_is_active b e.2).

(** The two responses the claims name. *)
Definition ok_response : JSONResponse := mkJSONResponse [("status", "ok")].
Definition not_found : Exception := HTTPException 404 "Room not found".

(** ** Sample data for the concrete instances *)

Definition sample_qr (url : string) : string := "data:image/png;base64," +:+ url.

Definition morning_jazz : CreateRoomRequest.t :=
  CreateRoomRequest.mk "Morning Jazz" None.

Definition evening_news : CreateRoomRequest.t :=
  CreateRoomRequest.mk "Evening News" (Some "daily").

(** One room [R] with stream key [S], created at time 100. *)
Definition one_room : State :=
  run sample_qr [CreateRoom "R" "S" 100 morning_jazz] initial_state.

(** Room [R] was created, started publishing at 105, and was then deleted. *)
Definition deleted_while_publishing : State :=
  run sample_qr [CreateRoom "R" "S" 100 morning_jazz;
                 StreamStart (notification "S") 105;
                 DeleteRoom "R"] initial_state.

(** A sequence of requests whose creations draw distinct identifiers. *)
Definition busy_day : list Op :=
  [CreateRoom "R" "S" 100 morning_jazz;
   StreamStart (notification "S") 105;
   CreateRoom "R2" "S2" 200 evening_news;
   DeleteRoom "R";
   StreamEnd (notification "S");
   GetRoom "R2"].

(** ** The health check and further predicates *)

(** The dictionary returned by [root]. *)
Module Health.
Record t := mk {
  message : string;
  status : string;
  active_rooms : nat
}.
End Health.

(** [GET /]; [active_rooms] is the length of the list comprehension
    [[r for r in rooms_db.values() if r.is_active]]. *)
Definition root : Handler Health.t :=
  rooms ← read_rooms;
  mret (Health.mk "Live Audio Streaming Platform API" "running"
          (length (filter (λ r, Room.is_active r = true) (values rooms)))).

(** Nothing is publishing under [key]: no room with that stream key is
    flagged active and the session table has no record for it. *)
Definition idle (key : option string) (st : State) : Prop :=
  (∀ r, r ∈ values (rooms_db st) → Some (Room.stream_key r) = key →
        Room.is_active r = false) ∧
  (active_streams st !! key = None).

(** Every room flagged active has a session record for its stream key. *)
Definition active_rooms_have_sessions (st : State) : Prop :=
  ∀ r, r ∈ values (rooms_db st) → Room.is_active r = true →
       is_Some (active_streams st !! Some (Room.stream_key r)).

(** Rooms [R] (key [S]) and [R2] (key [S2]), the first one publishing. *)
Definition two_rooms : State :=
  run sample_qr [CreateRoom "R" "S" 100 morning_jazz;
                 CreateRoom "R2" "S2" 200 evening_news;
                 StreamStart (notification "S") 205] initial_state.

(** ** The webhooks from the raw request *)

(** What [await request.form()] gives for the body of a request: the form,
    or, for a multipart body the framework's parser refuses, the message
    of its error. The parser is the framework's; its outcome is an input
    here, as the drawn identifiers and the clock are. *)
Inductive FormOutcome :=
| Parsed (form_data : gmap string string)
| MultiPartError (message : string).

Record HTTPRequest := mkHTTPRequest { body : FormOutcome }.

(** [await request.form()]: the framework turns the parser's error into
    [HTTPException(status_code=400, detail=message)]. *)
Definition request_form (http : HTTPRequest) : Handler (gmap string string) :=
  match body http with
  | Parsed form_data => mret form_data
  | MultiPartError message => raise (HTTPException 400 message)
  end.

(** The two webhook handlers from their first statement,
    [form_data = await request.form()], on; past it they are
    [stream_start_webhook] and [stream_end_webhook] above, which take the
    form that statement returned. Neither handler catches anything. *)
Module Endpoint.
Definition stream_start_webhook (http : HTTPRequest) (utcnow : datetime)
  : Handler JSONResponse :=
  form_data ← request_form http;
  stream_start_webhook (mkRequest form_data) utcnow.

Definition stream_end_webhook (http : HTTPRequest) : Handler JSONResponse :=
  form_data ← request_form http;
  stream_end_webhook (mkRequest form_data).
End Endpoint.

(** ** Further predicates on the registry *)

(** The entry the scan for the stream key [k] stops at: the first, in
    iteration order, whose room has stream key [k]. *)
Definition first_owner (k : string) (st : State) : option (string * Room.t) :=
  match find_room (Some k) (rooms_db st) with
  | Some (i, _) => rooms_db st !! i
  | None => None
  end.





(** * Properties *)

(** ** Dictionaries *)

Section dict_facts.
Context {V : Type}.
Implicit Types (d : dict V) (key : string) (v : V).

Lemma contains_true key d : contains key d = true ↔ key ∈ d.*1.
Proof. unfold contains. by rewrite bool_decide_eq_true. Qed.

Lemma contains_false key d : contains key d = false ↔ key ∉ d.*1.
Proof. unfold contains. by rewrite bool_decide_eq_false. Qed.

(** [d[key]] yields the value of the first entry stored under [key]. *)
Lemma getitem_Some key d v :
  getitem key d = Some v ↔
  ∃ j, d !! j = Some (key, v) ∧ ∀ j' e, j' < j → d !! j' = Some e → e.1 ≠ key.
Proof.
  induction d as [|[k w] d IH]; simpl.
  - split; [done|]. by intros (j & ? & _).
  - destruct (decide (k = key)) as [->|Hne].
    + split.
      * intros [= ->]. exists 0. split; [done|]. intros; lia.
      * intros ([|j] & Hj & Hfirst); [by simplify_eq/=|].
        exfalso. by apply (Hfirst 0 (key, w)); [lia|..].
    + rewrite IH. split.
      * intros (j & Hj & Hfirst). exists (S j). split; [done|].
        intros [|j'] e ? He; simplify_eq/=; [done|].
        apply (Hfirst j'); [lia|done].
      * intros ([|j] & Hj & Hfirst); simplify_eq/=.
        exists j. split; [done|]. intros j' e ? He.
        apply (Hfirst (S j')); [lia|done].
Qed.

Lemma getitem_None key d : getitem key d = None ↔ key ∉ d.*1.
Proof.
  induction d as [|[k w] d IH]; simpl.
  - split; [intros _; apply not_elem_of_nil|done].
  - rewrite not_elem_of_cons. destruct (decide (k = key)) as [->|Hne].
    + split; [done|]. by intros [? _].
    + rewrite IH. naive_solver.
Qed.

Lemma getitem_is_Some key d : is_Some (getitem key d) ↔ key ∈ d.*1.
Proof.
  rewrite <-not_eq_None_Some, getitem_None.
  split; [apply dec_stable|]. by intros ? ?.
Qed.

Lemma getitem_setitem_eq key v d : getitem key (setitem key v d) = Some v.
Proof.
  induction d as [|[k w] d IH]; simpl.
  - by rewrite decide_True.
  - destruct (decide (k = key)) as [->|Hne]; simpl.
    + by rewrite decide_True.
    + by rewrite decide_False.
Qed.

Lemma getitem_setitem_ne key key' v d :
  key ≠ key' → getitem key' (setitem key v d) = getitem key' d.
Proof.
  intros Hne. induction d as [|[k w] d IH]; simpl.
  - by rewrite decide_False.
  - destruct (decide (k = key)) as [->|Hk]; simpl.
    + by rewrite !decide_False.
    + by rewrite IH.
Qed.

Lemma setitem_fresh key v d : key ∉ d.*1 → setitem key v d = d ++ [(key, v)].
Proof.
  induction d as [|[k w] d IH]; simpl; [done|].
  rewrite not_elem_of_cons. intros [Hne Hd].
  rewrite decide_False by done. by rewrite IH.
Qed.

Lemma setitem_keys_elem key key' v d :
  key' ∈ (setitem key v d).*1 ↔ key' = key ∨ key' ∈ d.*1.
Proof.
  induction d as [|[k w] d IH]; simpl.
  - rewrite list_elem_of_singleton, elem_of_nil. naive_solver.
  - destruct (decide (k = key)) as [->|Hk]; simpl.
    + rewrite !elem_of_cons. naive_solver.
    + rewrite !elem_of_cons, IH. naive_solver.
Qed.

Lemma setitem_wf key v d : dict_wf d → dict_wf (setitem key v d).
Proof.
  unfold dict_wf. induction d as [|[k w] d IH]; simpl.
  - intros _. apply NoDup_singleton.
  - rewrite NoDup_cons. intros [Hk Hd].
    destruct (decide (k = key)) as [->|Hne]; simpl.
    + by apply NoDup_cons.
    + apply NoDup_cons. split; [|by apply IH].
      rewrite setitem_keys_elem. naive_solver.
Qed.

Lemma delitem_keys_elem key key' d :
  key' ∈ (delitem key d).*1 ↔ key' ≠ key ∧ key' ∈ d.*1.
Proof.
  unfold delitem. rewrite !list_elem_of_fmap. split.
  - intros ([k w] & -> & [??]%list_elem_of_filter). split; [done|].
    by exists (k, w).
  - intros (? & [k w] & -> & ?). exists (k, w). split; [done|].
    by apply list_elem_of_filter.
Qed.

Lemma contains_delitem key d : contains key (delitem key d) = false.
Proof. rewrite contains_false, delitem_keys_elem. naive_solver. Qed.

Lemma getitem_delitem_ne key key' d :
  key ≠ key' → getitem key' (delitem key d) = getitem key' d.
Proof.
  intros Hne. unfold delitem. induction d as [|[k w] d IH]; [done|].
  rewrite filter_cons. simpl. destruct (decide (k ≠ key)) as [Hk|Hk]; simpl.
  - by rewrite IH.
  - apply dec_stable in Hk as ->. by rewrite decide_False.
Qed.

Lemma delitem_wf key d : dict_wf d → dict_wf (delitem key d).
Proof.
  unfold dict_wf, delitem. induction d as [|[k w] d IH]; [done|].
  rewrite filter_cons. simpl. rewrite NoDup_cons. intros [Hk Hd].
  destruct (decide (k ≠ key)); simpl; [|by apply IH].
  apply NoDup_cons. split; [|by apply IH].
  intros Hin. apply Hk. by apply (delitem_keys_elem key k d).
Qed.

Lemma mutate_value_keys f i d : (mutate_value f i d).*1 = d.*1.
Proof.
  unfold mutate_value. rewrite (list_fmap_alter fst (prod_map id f) id).
  - by rewrite list_alter_id.
  - apply Forall_forall. by intros [??].
Qed.

Lemma mutate_value_values f i d :
  values (mutate_value f i d) = alter f i (values d).
Proof.
  unfold mutate_value, values.
  rewrite (list_fmap_alter snd (prod_map id f) f); [done|].
  apply Forall_forall. by intros [??].
Qed.

Lemma mutate_value_lookup_ne f i j d :
  i ≠ j → mutate_value f i d !! j = d !! j.
Proof. apply list_lookup_alter_ne. Qed.

Lemma mutate_value_lookup_eq f i d :
  mutate_value f i d !! i = prod_map id f <$> d !! i.
Proof. apply list_lookup_alter_eq. Qed.

(** Reading, by key, the object that was mutated through a reference:
    the entry that [d[key]] reads is still the first under [key]. *)
Lemma getitem_mutate_value_first f i key v d :
  d !! i = Some (key, v) →
  (∀ j e, j < i → d !! j = Some e → e.1 ≠ key) →
  getitem key (mutate_value f i d) = Some (f v) ∧
  mutate_value f i d !! i = Some (key, f v) ∧
  (∀ j e, j < i → mutate_value f i d !! j = Some e → e.1 ≠ key).
Proof.
  intros Hi Hfirst.
  assert (mutate_value f i d !! i = Some (key, f v)) as Hi'.
  { by rewrite mutate_value_lookup_eq, Hi. }
  assert (∀ j e, j < i → mutate_value f i d !! j = Some e → e.1 ≠ key) as Hfirst'.
  { intros j e Hlt Hj. rewrite mutate_value_lookup_ne in Hj by lia. eauto. }
  split_and!; [|done..]. apply getitem_Some. eauto.
Qed.

(** Reading any key whose entry is not the mutated one. *)
Lemma getitem_mutate_value_ne f i key d :
  (∀ w, d !! i ≠ Some (key, w)) →
  getitem key (mutate_value f i d) = getitem key d.
Proof.
  unfold mutate_value. intros Hi. revert i Hi.
  induction d as [|[k w] d IH]; intros i Hi; [done|].
  destruct i as [|i]; simpl.
  - destruct (decide (k = key)) as [->|?]; [|done]. by destruct (Hi w).
  - destruct (decide (k = key)); [done|]. apply IH. intros w'. apply (Hi w').
Qed.
End dict_facts.

(** ** The reverse lookup by stream key *)

Lemma find_room_Some key rooms i r :
  find_room key rooms = Some (i, r) ↔
  values rooms !! i = Some r ∧ Some (Room.stream_key r) = key ∧
  ∀ j r', values rooms !! j = Some r' → j < i → Some (Room.stream_key r') ≠ key.
Proof. unfold find_room. by rewrite list_find_Some. Qed.

Lemma find_room_None key rooms :
  find_room key rooms = None ↔
  ∀ r, r ∈ values rooms → Some (Room.stream_key r) ≠ key.
Proof. unfold find_room. by rewrite list_find_None, Forall_forall. Qed.

Lemma find_room_owned k st :
  owned k st ↔ is_Some (find_room (Some k) (rooms_db st)).
Proof.
  split.
  - intros (r & Hr & Hk). apply (list_find_elem_of _ _ r); [done|]. by rewrite Hk.
  - intros [[i r] (Hi & Hk & _)%find_room_Some]. exists r. split.
    + by eapply list_elem_of_lookup_2.
    + congruence.
Qed.

Lemma find_room_not_owned k st :
  ¬ owned k st ↔ find_room (Some k) (rooms_db st) = None.
Proof. by rewrite find_room_owned, eq_None_not_Some. Qed.

(** Flipping a flag moves no room and changes no stream key, so the scan
    stops at the same position afterwards. *)
Lemma find_room_mutate_is_active key b j rooms :
  fst <$> find_room key (mutate_value (Room.set_is_active b) j rooms) =
  fst <$> find_room key rooms.
Proof.
  unfold find_room. rewrite mutate_value_values.
  generalize (values rooms) as l. intros l. revert j.
  induction l as [|r l IH]; intros j; [done|].
  destruct j as [|j]; simpl.
  - by destruct (decide (Some (Room.stream_key r) = key)).
  - destruct (decide (Some (Room.stream_key r) = key)); [done|].
    rewrite <-!option_fmap_compose.
    change (fst ∘ prod_map S id) with (S ∘ (@fst nat Room.t)).
    rewrite !option_fmap_compose. f_equal. apply IH.
Qed.

(** ** What each handler returns and leaves *)

Lemma stream_start_webhook_run request utcnow st :
  stream_start_webhook request utcnow st =
  (inr ok_response,
   match fst <$> find_room (form request !! "name") (rooms_db st) with
   | Some i =>
       mkState (mutate_value (Room.set_is_active true) i (rooms_db st))
               (<[form request !! "name" := utcnow]> (active_streams st))
   | None => st
   end).
Proof.
  unfold stream_start_webhook, mbind, Handler_bind, read_rooms.
  by destruct (find_room _ _) as [[i r]|].
Qed.

Lemma stream_end_webhook_run request st :
  stream_end_webhook request st =
  (inr ok_response,
   match fst <$> find_room (form request !! "name") (rooms_db st) with
   | Some i =>
       mkState (mutate_value (Room.set_is_active false) i (rooms_db st))
               (delete (form request !! "name") (active_streams st))
   | None => st
   end).
Proof.
  unfold stream_end_webhook, mbind, Handler_bind, read_rooms.
  destruct (find_room _ _) as [[i r]|]; [|done]. simpl.
  case_bool_decide as Hin; simpl; [done|].
  rewrite delete_id; [done|]. by apply eq_None_not_Some.
Qed.

Lemma get_stream_status_run stream_key st :
  get_stream_status stream_key st =
  (inr (StreamStatus.mk stream_key
          (bool_decide (is_Some (active_streams st !! Some stream_key)))
          (active_streams st !! Some stream_key)), st).
Proof.
  unfold get_stream_status, mbind, Handler_bind, read_streams. simpl.
  case_bool_decide as Hin; [done|].
  by apply eq_None_not_Some in Hin as ->.
Qed.

Lemma get_room_run qr room_id st :
  get_room qr room_id st =
  (match getitem room_id (rooms_db st) with
   | Some room =>
       inr (room_response room (rtmp_url_of (Room.stream_key room))
              (viewer_url_of room_id) (qr (viewer_url_of room_id)))
   | None => inl not_found
   end, st).
Proof.
  unfold get_room, rooms_getitem, mbind, Handler_bind, read_rooms. simpl.
  destruct (contains room_id (rooms_db st)) eqn:Hin; simpl.
  - apply contains_true, getitem_is_Some in Hin as [room ->]. done.
  - apply contains_false, getitem_None in Hin as ->. done.
Qed.

Lemma delete_room_run room_id st :
  delete_room room_id st =
  if contains room_id (rooms_db st)
  then (inr [("message", "Room deleted successfully")],
        mkState (delitem room_id (rooms_db st)) (active_streams st))
  else (inl not_found, st).
Proof.
  unfold delete_room, rooms_delitem, mbind, Handler_bind, read_rooms. simpl.
  destruct (contains room_id (rooms_db st)) eqn:Hin; simpl; [|done].
  by rewrite Hin.
Qed.

Lemma create_room_run qr uuid4 token utcnow request st :
  create_room qr uuid4 token utcnow request st =
  let room :=
    Room.mk uuid4 token (CreateRoomRequest.title request) utcnow false 0 in
  (inr (room_response room (rtmp_url_of token) (viewer_url_of uuid4)
          (qr (viewer_url_of uuid4))),
   mkState (setitem uuid4 room (rooms_db st)) (active_streams st)).
Proof. done. Qed.

(** ** Notifications for a key some room owns, and for a key none owns *)

Lemma find_room_index_owned k st :
  owned k st → ∃ i, fst <$> find_room (Some k) (rooms_db st) = Some i.
Proof. intros [[i r] ->]%find_room_owned. by exists i. Qed.

Lemma owned_mutate_is_active k b j st streams :
  owned k st →
  owned k (mkState (mutate_value (Room.set_is_active b) j (rooms_db st)) streams).
Proof.
  intros [i Hi]%find_room_index_owned. apply find_room_owned. simpl.
  apply fmap_is_Some with (f := fst).
  by rewrite find_room_mutate_is_active, Hi.
Qed.

Lemma stream_start_owned request utcnow k st :
  form request !! "name" = Some k → owned k st →
  ∃ i, fst <$> find_room (Some k) (rooms_db st) = Some i ∧
       (stream_start_webhook request utcnow st).2 =
       mkState (mutate_value (Room.set_is_active true) i (rooms_db st))
               (<[Some k := utcnow]> (active_streams st)).
Proof.
  intros Hname [i Hi]%find_room_index_owned. exists i. split; [done|].
  by rewrite stream_start_webhook_run, Hname, Hi.
Qed.

Lemma stream_end_owned request k st :
  form request !! "name" = Some k → owned k st →
  ∃ i, fst <$> find_room (Some k) (rooms_db st) = Some i ∧
       (stream_end_webhook request st).2 =
       mkState (mutate_value (Room.set_is_active false) i (rooms_db st))
               (delete (Some k) (active_streams st)).
Proof.
  intros Hname [i Hi]%find_room_index_owned. exists i. split; [done|].
  by rewrite stream_end_webhook_run, Hname, Hi.
Qed.

Lemma stream_start_not_owned request utcnow k st :
  form request !! "name" = Some k → ¬ owned k st →
  stream_start_webhook request utcnow st = (inr ok_response, st).
Proof.
  intros Hname Hno%find_room_not_owned.
  by rewrite stream_start_webhook_run, Hname, Hno.
Qed.

Lemma stream_end_not_owned request k st :
  form request !! "name" = Some k → ¬ owned k st →
  stream_end_webhook request st = (inr ok_response, st).
Proof.
  intros Hname Hno%find_room_not_owned.
  by rewrite stream_end_webhook_run, Hname, Hno.
Qed.

Lemma one_room_owned : owned "S" one_room.
Proof.
  exists (Room.mk "R" "S" "Morning Jazz" 100 false 0).
  split; [|reflexivity]. vm_compute. constructor.
Qed.

Lemma deleted_while_publishing_not_owned : ¬ owned "S" deleted_while_publishing.
Proof. intros (r & Hr & _). vm_compute in Hr. by apply elem_of_nil in Hr. Qed.

(** ** Stream session tracker *)

(** C1, as stated, fails: in the state reached by creating room [R] with
    key [S], starting the stream and deleting the room, no room owns [S];
    the end notification for [S] then leaves the session record in place
    and the status query still reports the stream active since 105. *)
Lemma stream_end_keeps_session_of_deleted_room :
  ¬ owned "S" deleted_while_publishing ∧
  (get_stream_status "S"
     (stream_end_webhook (notification "S") deleted_while_publishing).2).1 =
  inr (StreamStatus.mk "S" true (Some 105%Z)).
Proof. split; [apply deleted_while_publishing_not_owned|]. by vm_compute. Qed.

(** C1 (amended): [on_stream_end(k)] removes the session record for [k]
    when a room with stream key [k] is in the registry, and [is_active(k)]
    then reports [(false, null)]; when no room has stream key [k] the
    session table is left as it was. *)
Theorem stream_end_removes_session_of_owned_key request k st :
  form request !! "name" = Some k →
  let st' := (stream_end_webhook request st).2 in
  (owned k st →
     active_streams st' !! Some k = None ∧
     (get_stream_status k st').1 = inr (StreamStatus.mk k false None)) ∧
  (¬ owned k st → active_streams st' = active_streams st).
Proof.
  intros Hname st'. split.
  - intros Hown. destruct (stream_end_owned request k st Hname Hown) as (i & _ & Hst').
    assert (active_streams st' !! Some k = None) as Hgone.
    { subst st'. rewrite Hst'. simpl. apply lookup_delete_eq. }
    split; [done|]. rewrite get_stream_status_run. simpl. rewrite Hgone.
    by rewrite bool_decide_eq_false_2 by (by intros [??]).
  - intros Hno. subst st'. by rewrite (stream_end_not_owned request k st Hname Hno).
Qed.

Lemma stream_end_removes_session_of_owned_key_witness :
  let publishing := (stream_start_webhook (notification "S") 105 one_room).2 in
  (get_stream_status "S" (stream_end_webhook (notification "S") publishing).2).1 =
    inr (StreamStatus.mk "S" false None) ∧
  active_streams (stream_end_webhook (notification "S") deleted_while_publishing).2 =
    active_streams deleted_while_publishing.
Proof.
  intros publishing. split.
  - apply (stream_end_removes_session_of_owned_key (notification "S") "S" publishing);
      [reflexivity|].
    apply owned_mutate_is_active, one_room_owned.
  - apply (stream_end_removes_session_of_owned_key (notification "S") "S"
             deleted_while_publishing); [reflexivity|].
    apply deleted_while_publishing_not_owned.
Defined.

(** C2, as stated, fails: a start notification for a key no room owns
    records nothing; with an empty registry the session table stays empty
    and the status query reports the key inactive. *)
Lemma stream_start_records_no_orphan :
  ¬ owned "S" initial_state ∧
  active_streams (stream_start_webhook (notification "S") 105 initial_state).2 = ∅ ∧
  (get_stream_status "S"
     (stream_start_webhook (notification "S") 105 initial_state).2).1 =
  inr (StreamStatus.mk "S" false None).
Proof.
  split; [|by vm_compute].
  intros (r & Hr & _). by apply elem_of_nil in Hr.
Qed.

(** C2 (amended): for a stream key [k] that no room owns,
    [on_stream_start(k)] raises nothing, answers with the success response
    and leaves the registry and the session table unchanged, so that the
    stream-status query for [k] answers what it answered before. *)
Theorem stream_start_unowned_key_is_absorbed request utcnow k st :
  form request !! "name" = Some k →
  ¬ owned k st →
  stream_start_webhook request utcnow st = (inr ok_response, st) ∧
  get_stream_status k (stream_start_webhook request utcnow st).2 =
    get_stream_status k st.
Proof.
  intros Hname Hno.
  by rewrite (stream_start_not_owned request utcnow k st Hname Hno).
Qed.

Lemma stream_start_unowned_key_is_absorbed_witness :
  stream_start_webhook (notification "S") 110 deleted_while_publishing =
    (inr ok_response, deleted_while_publishing) ∧
  get_stream_status "S"
    (stream_start_webhook (notification "S") 110 deleted_while_publishing).2 =
    get_stream_status "S" deleted_while_publishing.
Proof.
  apply (stream_start_unowned_key_is_absorbed (notification "S") 110 "S"
           deleted_while_publishing); [reflexivity|].
  apply deleted_while_publishing_not_owned.
Defined.

(** C3, as stated, fails: with room [R] (key [S]) in the registry, a start
    notification for the key [other], which no room owns, is followed by
    an inactive status for [other]. *)
Lemma stream_start_then_status_inactive :
  (get_stream_status "other"
     (stream_start_webhook (notification "other") 105 one_room).2).1 =
  inr (StreamStatus.mk "other" false None).
Proof. by vm_compute. Qed.

(** C3 (amended): for every state and every stream key [k] owned by a room
    of the registry, [on_stream_start(k)] followed by [is_active(k)]
    returns [(true, t)] with [t] the time of the notification, and
    [on_stream_end(k)] afterwards makes [is_active(k)] return
    [(false, null)]. *)
Theorem start_then_end_of_owned_key started ended utcnow k st :
  form started !! "name" = Some k →
  form ended !! "name" = Some k →
  owned k st →
  let st1 := (stream_start_webhook started utcnow st).2 in
  let st2 := (stream_end_webhook ended st1).2 in
  (get_stream_status k st1).1 = inr (StreamStatus.mk k true (Some utcnow)) ∧
  (get_stream_status k st2).1 = inr (StreamStatus.mk k false None).
Proof.
  intros Hstarted Hended Hown st1 st2.
  destruct (stream_start_owned started utcnow k st Hstarted Hown) as (i & _ & Hst1).
  fold st1 in Hst1. split.
  - rewrite get_stream_status_run, Hst1. simpl. rewrite lookup_insert_eq.
    by rewrite bool_decide_eq_true_2 by done.
  - assert (owned k st1) as Hown1.
    { rewrite Hst1. by apply owned_mutate_is_active. }
    destruct (stream_end_owned ended k st1 Hended Hown1) as (i' & _ & Hst2).
    fold st2 in Hst2. rewrite get_stream_status_run, Hst2. simpl.
    rewrite lookup_delete_eq.
    by rewrite bool_decide_eq_false_2 by (by intros [??]).
Qed.

Lemma start_then_end_of_owned_key_witness :
  let st1 := (stream_start_webhook (notification "S") 105 one_room).2 in
  let st2 := (stream_end_webhook (notification "S") st1).2 in
  (get_stream_status "S" st1).1 = inr (StreamStatus.mk "S" true (Some 105%Z)) ∧
  (get_stream_status "S" st2).1 = inr (StreamStatus.mk "S" false None).
Proof.
  apply (start_then_end_of_owned_key (notification "S") (notification "S") 105 "S"
           one_room); [reflexivity|reflexivity|].
  apply one_room_owned.
Defined.



Lemma changes_only_first_match_refl key rooms :
  changes_only_first_match key rooms rooms.
Proof. split; [done|]. by intros j e -> ?. Qed.

Lemma mutate_first_match key b i r rooms :
  find_room key rooms = Some (i, r) →
  changes_only_first_match key rooms (mutate_value (Room.set_is_active b) i rooms).
Proof.
  intros (Hi & Hkey & Hfirst)%find_room_Some. split.
  - apply length_alter.
  - intros j e Hj Hchanged. destruct (decide (i = j)) as [<-|Hne].
    + unfold values in Hi. rewrite list_lookup_fmap, Hj in Hi.
      injection Hi as <-. split_and!; [done| |].
      * intros j' e' Hlt Hj'. apply (Hfirst j'); [|done].
        unfold values. by rewrite list_lookup_fmap, Hj'.
      * exists b. by rewrite mutate_value_lookup_eq, Hj.
    + by rewrite mutate_value_lookup_ne in Hchanged.
Qed.

(** C10: a start or an end notification changes at most one room, the
    first in iteration order whose stream key is the notified one, and
    only its [is_active] flag; every room with another stream key is left
    as it was. When no room has the notified key (or the [name] field is
    missing), the handlers raise nothing and leave the whole state
    unchanged. *)
Theorem webhooks_change_only_first_owner request utcnow st :
  let key := form request !! "name" in
  changes_only_first_match key (rooms_db st)
    (rooms_db (stream_start_webhook request utcnow st).2) ∧
  changes_only_first_match key (rooms_db st)
    (rooms_db (stream_end_webhook request st).2) ∧
  ((∀ r, r ∈ values (rooms_db st) → Some (Room.stream_key r) ≠ key) →
     stream_start_webhook request utcnow st = (inr ok_response, st) ∧
     stream_end_webhook request st = (inr ok_response, st)).
Proof.
  intros key. rewrite stream_start_webhook_run, stream_end_webhook_run. fold key.
  destruct (find_room key (rooms_db st)) as [[i r]|] eqn:Hfind; simpl.
  - split_and!; [by eapply mutate_first_match..|].
    intros Hnone%find_room_None. congruence.
  - split_and!; [apply changes_only_first_match_refl..|done].
Qed.

Lemma webhooks_change_only_first_owner_witness :
  stream_start_webhook (notification "other") 105 one_room = (inr ok_response, one_room) ∧
  stream_end_webhook (notification "other") one_room = (inr ok_response, one_room).
Proof.
  apply (webhooks_change_only_first_owner (notification "other") 105 one_room).
  intros r Hr. vm_compute in Hr.
  apply list_elem_of_singleton in Hr as ->. discriminate.
Defined.

(** ** Room registry *)

(** C7: deleting a room leaves the session table as it is. When the
    deleted room's stream key has a session record, the deletion succeeds,
    the status query for that key still reports the stream active with the
    same start time, and [get] of the deleted identifier raises the 404
    error. *)
Theorem delete_room_keeps_sessions qr room_id st :
  let st' := (delete_room room_id st).2 in
  active_streams st' = active_streams st ∧
  ∀ room started_at,
    getitem room_id (rooms_db st) = Some room →
    active_streams st !! Some (Room.stream_key room) = Some started_at →
    (delete_room room_id st).1 =
      inr [("message", "Room deleted successfully")] ∧
    (get_stream_status (Room.stream_key room) st').1 =
      inr (StreamStatus.mk (Room.stream_key room) true (Some started_at)) ∧
    (get_room qr room_id st').1 = inl (HTTPException 404 "Room not found").
Proof.
  intros st'. subst st'. rewrite delete_room_run.
  destruct (contains room_id (rooms_db st)) eqn:Hin; cbn [fst snd].
  - split; [done|]. intros room started_at _ Hstarted. split_and!; [done|..].
    + rewrite get_stream_status_run. simpl. rewrite Hstarted.
      by rewrite bool_decide_eq_true_2 by done.
    + rewrite get_room_run. simpl.
      assert (getitem room_id (delitem room_id (rooms_db st)) = None) as ->; [|done].
      apply getitem_None, contains_false, contains_delitem.
  - split; [done|]. intros room started_at Hroom _.
    apply contains_false, getitem_None in Hin. congruence.
Qed.

Lemma delete_room_keeps_sessions_witness :
  let publishing := (stream_start_webhook (notification "S") 105 one_room).2 in
  let st' := (delete_room "R" publishing).2 in
  (delete_room "R" publishing).1 =
    inr [("message", "Room deleted successfully")] ∧
  (get_stream_status "S" st').1 = inr (StreamStatus.mk "S" true (Some 105%Z)) ∧
  (get_room sample_qr "R" st').1 = inl (HTTPException 404 "Room not found").
Proof.
  intros publishing st'.
  apply (proj2 (delete_room_keeps_sessions sample_qr "R" publishing)
           (Room.mk "R" "S" "Morning Jazz" 100 true 0) 105%Z); reflexivity.
Defined.

(** C8: [get] after [delete] of the same identifier raises the 404 error,
    and on an identifier that is not in the registry both [delete] and
    [get] raise the 404 error (and leave the state as it is). *)
Theorem delete_then_get_not_found qr room_id st :
  (get_room qr room_id (delete_room room_id st).2).1 =
    inl (HTTPException 404 "Room not found") ∧
  (contains room_id (rooms_db st) = false →
     delete_room room_id st = (inl (HTTPException 404 "Room not found"), st) ∧
     get_room qr room_id st = (inl (HTTPException 404 "Room not found"), st)).
Proof.
  split.
  - rewrite delete_room_run, get_room_run. simpl.
    destruct (contains room_id (rooms_db st)) eqn:Hin; simpl.
    + assert (getitem room_id (delitem room_id (rooms_db st)) = None) as ->; [|done].
      apply getitem_None, contains_false, contains_delitem.
    + by apply contains_false, getitem_None in Hin as ->.
  - intros Hin. rewrite delete_room_run, get_room_run, Hin.
    by apply contains_false, getitem_None in Hin as ->.
Qed.

Lemma delete_then_get_not_found_witness :
  delete_room "absent" one_room = (inl (HTTPException 404 "Room not found"), one_room) ∧
  get_room sample_qr "absent" one_room =
    (inl (HTTPException 404 "Room not found"), one_room).
Proof.
  apply (delete_then_get_not_found sample_qr "absent" one_room). reflexivity.
Defined.

(** C9: for every title (and every state, and whatever identifiers are
    drawn), [create] succeeds and [get] of the identifier it returns
    succeeds with the very response of the creation, whose title is the
    requested one, whose [is_active] is false and whose [viewer_count] is
    zero. *)
Theorem get_after_create qr uuid4 token utcnow request st :
  ∃ created,
    (create_room qr uuid4 token utcnow request st).1 = inr created ∧
    (get_room qr (RoomResponse.room_id created)
       (create_room qr uuid4 token utcnow request st).2).1 = inr created ∧
    RoomResponse.title created = CreateRoomRequest.title request ∧
    RoomResponse.is_active created = false ∧
    RoomResponse.viewer_count created = 0%Z.
Proof.
  rewrite create_room_run. simpl. eexists. split; [done|].
  rewrite get_room_run. simpl. by rewrite getitem_setitem_eq.
Qed.

(** ** Reconciliation of the registry with the tracker *)

(** With unique stream keys the scan resolves a key to the room that has it,
    wherever that room is stored. *)
Lemma find_room_unique_owner st j room_id room :
  stream_keys_unique st →
  rooms_db st !! j = Some (room_id, room) →
  fst <$> find_room (Some (Room.stream_key room)) (rooms_db st) = Some j.
Proof.
  intros Huniq Hj.
  assert (values (rooms_db st) !! j = Some room) as Hvj.
  { unfold values. by rewrite list_lookup_fmap, Hj. }
  destruct (find_room (Some (Room.stream_key room)) (rooms_db st))
    as [[i r]|] eqn:Hfind; simpl.
  - apply find_room_Some in Hfind as (Hvi & Hkey & _).
    f_equal. apply (NoDup_lookup _ i j (Room.stream_key room) Huniq).
    + rewrite list_lookup_fmap, Hvi. simpl. congruence.
    + by rewrite list_lookup_fmap, Hvj.
  - exfalso. apply (proj1 (find_room_None _ _) Hfind room); [|done].
    by eapply list_elem_of_lookup_2.
Qed.


(** When stream keys are unique, every room is the first owner of its
    stream key. *)
Lemma unique_keys_first_owner room_id room st :
  stream_keys_unique st →
  getitem room_id (rooms_db st) = Some room →
  first_owner (Room.stream_key room) st = Some (room_id, room).
Proof.
  intros Huniq (j & Hj & _)%getitem_Some. unfold first_owner.
  pose proof (find_room_unique_owner st j room_id room Huniq Hj) as Hfind.
  by destruct (find_room _ _) as [[i r]|]; simplify_eq/=.
Qed.




(** ** Uniqueness of identifiers *)

Lemma get_room_stream_url_state room_id st : (get_room_stream_url room_id st).2 = st.
Proof.
  unfold get_room_stream_url, rooms_getitem, mbind, Handler_bind, read_rooms. simpl.
  destruct (contains room_id (rooms_db st)); simpl; [|done].
  by destruct (getitem room_id (rooms_db st)).
Qed.

(** A creation with fresh identifiers appends the new room. *)
Lemma create_room_fresh qr uuid4 token utcnow request st :
  fresh_ids uuid4 token st →
  rooms_db (create_room qr uuid4 token utcnow request st).2 =
  rooms_db st ++
    [(uuid4, Room.mk uuid4 token (CreateRoomRequest.title request) utcnow false 0)].
Proof. intros [Hid _]. rewrite create_room_run. simpl. by apply setitem_fresh. Qed.

Lemma unique_after_append uuid4 room st streams :
  fresh_ids uuid4 (Room.stream_key room) st →
  Room.room_id room = uuid4 →
  room_ids_unique st → stream_keys_unique st →
  room_ids_unique (mkState (rooms_db st ++ [(uuid4, room)]) streams) ∧
  stream_keys_unique (mkState (rooms_db st ++ [(uuid4, room)]) streams).
Proof.
  intros [Hid Hkey] Hroom [Hwf Hown] Hkeys. split; [split|].
  - unfold dict_wf. simpl. rewrite fmap_app. apply NoDup_app.
    split_and!; [done| |apply NoDup_singleton].
    intros x Hx ->%list_elem_of_singleton. done.
  - simpl. apply Forall_app. split; [done|]. by apply Forall_singleton.
  - unfold stream_keys_unique, values. simpl. rewrite !fmap_app. apply NoDup_app.
    split_and!; [done| |apply NoDup_singleton].
    intros x Hx ->%list_elem_of_singleton. done.
Qed.

Lemma unique_after_delitem room_id st streams :
  room_ids_unique st → stream_keys_unique st →
  room_ids_unique (mkState (delitem room_id (rooms_db st)) streams) ∧
  stream_keys_unique (mkState (delitem room_id (rooms_db st)) streams).
Proof.
  intros [Hwf Hown] Hkeys.
  assert (delitem room_id (rooms_db st) `sublist_of` rooms_db st) as Hsub.
  { apply sublist_filter. }
  split; [split|].
  - by apply delitem_wf.
  - simpl. apply Forall_forall. intros e He.
    eapply (proj1 (Forall_forall _ _) Hown), elem_of_sublist; done.
  - unfold stream_keys_unique, values. simpl.
    eapply sublist_NoDup; [exact Hkeys|]. by do 2 apply fmap_sublist.
Qed.

Lemma unique_after_mutate b i st streams :
  room_ids_unique st → stream_keys_unique st →
  room_ids_unique (mkState (mutate_value (Room.set_is_active b) i (rooms_db st)) streams) ∧
  stream_keys_unique
    (mkState (mutate_value (Room.set_is_active b) i (rooms_db st)) streams).
Proof.
  intros [Hwf Hown] Hkeys. split; [split|].
  - unfold dict_wf. simpl. by rewrite mutate_value_keys.
  - simpl. apply Forall_alter; [done|]. by intros [??] _.
  - unfold stream_keys_unique. simpl. rewrite mutate_value_values.
    rewrite (list_fmap_alter Room.stream_key (Room.set_is_active b) id).
    + by rewrite list_alter_id.
    + by apply Forall_forall.
Qed.

Lemma step_unique qr op st :
  match op with
  | CreateRoom uuid4 token _ _ => fresh_ids uuid4 token st
  | _ => True
  end →
  room_ids_unique st → stream_keys_unique st →
  room_ids_unique (step qr st op) ∧ stream_keys_unique (step qr st op).
Proof.
  intros Hfresh Hids Hkeys. destruct op as
    [uuid4 token utcnow request|room_id| |room_id|request utcnow|request|k|room_id];
    cbn [step].
  - rewrite create_room_run. cbn [snd].
    rewrite setitem_fresh by apply Hfresh. by apply unique_after_append.
  - by rewrite get_room_run.
  - done.
  - rewrite delete_room_run. destruct (contains _ _); cbn [snd]; [|done].
    by apply unique_after_delitem.
  - rewrite stream_start_webhook_run. cbn [snd].
    destruct (fst <$> find_room _ _); [|done]. by apply unique_after_mutate.
  - rewrite stream_end_webhook_run. cbn [snd].
    destruct (fst <$> find_room _ _); [|done]. by apply unique_after_mutate.
  - by rewrite get_stream_status_run.
  - by rewrite get_room_stream_url_state.
Qed.

Lemma run_unique qr ops st :
  fresh_run qr ops st →
  room_ids_unique st → stream_keys_unique st →
  room_ids_unique (run qr ops st) ∧ stream_keys_unique (run qr ops st).
Proof.
  revert st. induction ops as [|op ops IH]; intros st; simpl; [done|].
  intros [Hop Hrest] Hids Hkeys.
  destruct (step_unique qr op st Hop Hids Hkeys) as [??]. by apply IH.
Qed.

(** The association list stays a dictionary under every request, whatever
    identifiers the creations draw. *)
Lemma step_dict_wf qr op st :
  dict_wf (rooms_db st) → dict_wf (rooms_db (step qr st op)).
Proof.
  intros Hwf. destruct op as
    [uuid4 token utcnow request|room_id| |room_id|request utcnow|request|k|room_id];
    cbn [step].
  - rewrite create_room_run. cbn [snd rooms_db]. by apply setitem_wf.
  - by rewrite get_room_run.
  - done.
  - rewrite delete_room_run. destruct (contains _ _); cbn [snd rooms_db]; [|done].
    by apply delitem_wf.
  - rewrite stream_start_webhook_run. cbn [snd].
    destruct (fst <$> find_room _ _); [|done].
    unfold dict_wf. cbn [rooms_db]. by rewrite mutate_value_keys.
  - rewrite stream_end_webhook_run. cbn [snd].
    destruct (fst <$> find_room _ _); [|done].
    unfold dict_wf. cbn [rooms_db]. by rewrite mutate_value_keys.
  - by rewrite get_stream_status_run.
  - by rewrite get_room_stream_url_state.
Qed.

Lemma run_dict_wf qr ops : dict_wf (rooms_db (run qr ops initial_state)).
Proof.
  assert (∀ st, dict_wf (rooms_db st) → dict_wf (rooms_db (run qr ops st))) as Hrun.
  { induction ops as [|op ops IH]; intros st Hwf; [done|].
    simpl. by apply IH, step_dict_wf. }
  apply Hrun, NoDup_nil_2.
Qed.


Lemma setitem_Forall {V} (P : string * V → Prop) key v (d : dict V) :
  P (key, v) → Forall P d → Forall P (setitem key v d).
Proof.
  intros Hv. induction 1 as [|[k w] d Hw Hd IH]; simpl.
  - by apply Forall_singleton.
  - destruct (decide (k = key)) as [->|_]; by apply Forall_cons.
Qed.



Lemma initial_state_unique :
  room_ids_unique initial_state ∧ stream_keys_unique initial_state.
Proof. split; [split|]; [apply NoDup_nil_2|apply Forall_nil_2|apply NoDup_nil_2]. Qed.








(** * Further properties of the handlers *)

(** ** Reads *)

Lemma get_room_stream_url_run room_id st :
  get_room_stream_url room_id st =
  (match getitem room_id (rooms_db st) with
   | Some room =>
       inr (StreamUrl.mk room_id
              ("/broadcast/client/hls/" +:+ Room.stream_key room +:+ ".m3u8")
              (Room.is_active room) (Room.title room))
   | None => inl not_found
   end, st).
Proof.
  unfold get_room_stream_url, rooms_getitem, mbind, Handler_bind, read_rooms. simpl.
  destruct (contains room_id (rooms_db st)) eqn:Hin; simpl.
  - apply contains_true, getitem_is_Some in Hin as [room ->]. done.
  - apply contains_false, getitem_None in Hin as ->. done.
Qed.

Lemma filter_fmap_length {A B} (f : A → B) (P : B → Prop)
    `{∀ y, Decision (P y)} (l : list A) :
  length (filter P (f <$> l)) = length (filter (λ x, P (f x)) l).
Proof.
  induction l as [|x l IH]; [done|]. rewrite fmap_cons, !filter_cons.
  destruct (decide (P (f x))); simpl; by rewrite IH.
Qed.

(** X1: the five reading handlers ([root], [get_room], [list_rooms],
    [get_stream_status], [get_room_stream_url]) leave both tables as they
    are, whether they return or raise the 404 error. *)
Theorem reading_handlers_keep_state qr room_id stream_key st :
  (root st).2 = st ∧
  (get_room qr room_id st).2 = st ∧
  (list_rooms st).2 = st ∧
  (get_stream_status stream_key st).2 = st ∧
  (get_room_stream_url room_id st).2 = st.
Proof.
  by rewrite get_room_run, get_stream_status_run, get_room_stream_url_run.
Qed.

(** X2: the [active_rooms] figure of the health check is the number of
    entries of the room listing whose [is_active] is true, and the listing
    has one entry per stored room. *)
Theorem root_counts_listed_active_rooms st :
  ∃ health summaries,
    (root st).1 = inr health ∧
    (list_rooms st).1 = inr summaries ∧
    Health.active_rooms health =
      length (filter (λ s, RoomSummary.is_active s = true) summaries) ∧
    length summaries = length (rooms_db st) ∧
    (Health.active_rooms health ≤ length (rooms_db st))%nat.
Proof.
  eexists _, _. split_and!; [done|done|..]; simpl.
  - by rewrite filter_fmap_length.
  - unfold values. by rewrite !length_fmap.
  - etrans; [apply length_filter|]. unfold values. by rewrite length_fmap.
Qed.

(** ** Frame of creation and deletion *)

(** X3: a creation leaves the session table as it is and does not change
    what [get_room] and [get_room_stream_url] answer for any other room
    identifier. *)
Theorem create_room_leaves_other_rooms qr uuid4 token utcnow request room_id st :
  room_id ≠ uuid4 →
  let st' := (create_room qr uuid4 token utcnow request st).2 in
  active_streams st' = active_streams st ∧
  (get_room qr room_id st').1 = (get_room qr room_id st).1 ∧
  (get_room_stream_url room_id st').1 = (get_room_stream_url room_id st).1.
Proof.
  intros Hne st'. subst st'. rewrite create_room_run. cbn [snd].
  rewrite !get_room_run, !get_room_stream_url_run. cbn [fst rooms_db active_streams].
  by rewrite getitem_setitem_ne.
Qed.

Lemma create_room_leaves_other_rooms_witness :
  let st' := (create_room sample_qr "R3" "S3" 300 evening_news two_rooms).2 in
  active_streams st' = active_streams two_rooms ∧
  (get_room sample_qr "R" st').1 = (get_room sample_qr "R" two_rooms).1 ∧
  (get_room_stream_url "R" st').1 = (get_room_stream_url "R" two_rooms).1.
Proof.
  apply (create_room_leaves_other_rooms sample_qr "R3" "S3" 300 evening_news "R"
           two_rooms).
  discriminate.
Defined.

(** X4: a deletion does not change what [get_room] and
    [get_room_stream_url] answer for any other room identifier. *)
Theorem delete_room_leaves_other_rooms qr room_id other st :
  other ≠ room_id →
  let st' := (delete_room room_id st).2 in
  (get_room qr other st').1 = (get_room qr other st).1 ∧
  (get_room_stream_url other st').1 = (get_room_stream_url other st).1.
Proof.
  intros Hne st'. subst st'. rewrite delete_room_run.
  destruct (contains room_id (rooms_db st)); cbn [snd]; [|done].
  rewrite !get_room_run, !get_room_stream_url_run. cbn [fst rooms_db].
  by rewrite getitem_delitem_ne.
Qed.

Lemma delete_room_leaves_other_rooms_witness :
  let st' := (delete_room "R" two_rooms).2 in
  (get_room sample_qr "R2" st').1 = (get_room sample_qr "R2" two_rooms).1 ∧
  (get_room_stream_url "R2" st').1 = (get_room_stream_url "R2" two_rooms).1.
Proof.
  apply (delete_room_leaves_other_rooms sample_qr "R" "R2" two_rooms).
  discriminate.
Defined.

(** X5: deleting is not repeatable: whatever the first [delete] of an
    identifier did, a second [delete] of it raises the 404 error and
    changes nothing. *)
Theorem delete_room_twice room_id st :
  delete_room room_id (delete_room room_id st).2 =
  (inl (HTTPException 404 "Room not found"), (delete_room room_id st).2).
Proof.
  rewrite (delete_room_run room_id (delete_room room_id st).2).
  rewrite (delete_room_run room_id st).
  destruct (contains room_id (rooms_db st)) eqn:Hin; cbn [snd rooms_db].
  - by rewrite contains_delitem.
  - by rewrite Hin.
Qed.

(** ** Repeated and unmatched notifications *)

Lemma mutate_is_active_twice b b' i (rooms : dict Room.t) :
  mutate_value (Room.set_is_active b) i (mutate_value (Room.set_is_active b') i rooms) =
  mutate_value (Room.set_is_active b) i rooms.
Proof.
  unfold mutate_value. rewrite list_alter_alter_eq.
  apply list_alter_ext; [|done]. by intros [??] _.
Qed.

Lemma mutate_is_active_same b i (rooms : dict Room.t) :
  (∀ e, rooms !! i = Some e → Room.is_active e.2 = b) →
  mutate_value (Room.set_is_active b) i rooms = rooms.
Proof.
  intros Hsame. unfold mutate_value. apply list_eq. intros j.
  destruct (decide (i = j)) as [<-|Hne].
  - rewrite list_lookup_alter_eq. destruct (rooms !! i) as [[k r]|] eqn:Hi; [|done].
    specialize (Hsame _ eq_refl). simpl in *. subst b. by destruct r.
  - by rewrite list_lookup_alter_ne.
Qed.

Lemma find_room_index_Some key rooms i :
  fst <$> find_room key rooms = Some i →
  ∃ e, rooms !! i = Some e ∧ Some (Room.stream_key e.2) = key.
Proof.
  destruct (find_room key rooms) as [[i' r]|] eqn:Hfind; [|done].
  intros [= ->]. apply find_room_Some in Hfind as (Hi & Hkey & _).
  unfold values in Hi. apply list_lookup_fmap_Some in Hi as ([k r'] & -> & Hi).
  by exists (k, r').
Qed.

(** X6: a start notification received while the key is already publishing
    re-stamps the session: two start notifications in a row, at times [t1]
    then [t2], leave exactly the state (and give the response) of the
    single notification at [t2]. *)
Theorem stream_start_restamps request t1 t2 st :
  stream_start_webhook request t2 (stream_start_webhook request t1 st).2 =
  stream_start_webhook request t2 st.
Proof.
  rewrite (stream_start_webhook_run request t2 (stream_start_webhook request t1 st).2).
  rewrite (stream_start_webhook_run request t2 st).
  rewrite (stream_start_webhook_run request t1 st). cbn [snd].
  destruct (fst <$> find_room (form request !! "name") (rooms_db st)) as [i|] eqn:Hfind;
    cbn [rooms_db active_streams].
  - rewrite find_room_mutate_is_active, Hfind.
    by rewrite mutate_is_active_twice, insert_insert_eq.
  - by rewrite Hfind.
Qed.

(** X7: the end notification is idempotent: a second one in a row changes
    nothing more. *)
Theorem stream_end_idempotent request st :
  stream_end_webhook request (stream_end_webhook request st).2 =
  stream_end_webhook request st.
Proof.
  rewrite (stream_end_webhook_run request (stream_end_webhook request st).2).
  rewrite (stream_end_webhook_run request st). cbn [snd].
  destruct (fst <$> find_room (form request !! "name") (rooms_db st)) as [i|] eqn:Hfind;
    cbn [rooms_db active_streams].
  - rewrite find_room_mutate_is_active, Hfind.
    by rewrite mutate_is_active_twice, delete_delete_eq.
  - by rewrite Hfind.
Qed.

Lemma idle_mutate_false key i st :
  idle key st →
  fst <$> find_room key (rooms_db st) = Some i →
  mutate_value (Room.set_is_active false) i (rooms_db st) = rooms_db st.
Proof.
  intros [Hflags _] (e & Hi & Hkey)%find_room_index_Some.
  apply mutate_is_active_same. intros e' He'. simplify_eq.
  apply Hflags; [|done]. unfold values.
  apply list_elem_of_fmap_2, list_elem_of_lookup. eauto.
Qed.

(** X8: an end notification without a start before it is a no-op: when no
    room with the notified key is flagged active and the key has no
    session record, the handler answers ok and leaves the state as it
    is. *)
Theorem stream_end_when_idle request st :
  idle (form request !! "name") st →
  stream_end_webhook request st = (inr ok_response, st).
Proof.
  intros Hidle. rewrite stream_end_webhook_run.
  destruct (fst <$> find_room _ _) as [i|] eqn:Hfind; [|done].
  rewrite (idle_mutate_false _ i st Hidle Hfind).
  rewrite delete_id by apply Hidle. by destruct st.
Qed.

Lemma one_room_idle : idle (Some "S") one_room.
Proof.
  split; [|done]. intros r Hr _. vm_compute in Hr.
  by apply list_elem_of_singleton in Hr as ->.
Qed.

Lemma stream_end_when_idle_witness :
  stream_end_webhook (notification "S") one_room = (inr ok_response, one_room).
Proof.
  apply (stream_end_when_idle (notification "S") one_room). apply one_room_idle.
Defined.

(** X9: a start notification followed by an end notification for the same
    key is a round trip: from a state in which nothing is publishing
    under the key, the two notifications lead back to that very state. *)
Theorem stream_start_then_end_round_trip started ended utcnow st :
  form ended !! "name" = form started !! "name" →
  idle (form started !! "name") st →
  (stream_end_webhook ended (stream_start_webhook started utcnow st).2).2 = st.
Proof.
  intros Hsame Hidle.
  rewrite (stream_end_webhook_run ended (stream_start_webhook started utcnow st).2).
  rewrite (stream_start_webhook_run started utcnow st), Hsame. cbn [snd].
  destruct (fst <$> find_room (form started !! "name") (rooms_db st))
    as [i|] eqn:Hfind; cbn [rooms_db active_streams].
  - rewrite find_room_mutate_is_active, Hfind.
    rewrite mutate_is_active_twice, (idle_mutate_false _ i st Hidle Hfind).
    rewrite delete_insert_id by apply Hidle. by destruct st.
  - by rewrite Hfind.
Qed.

Lemma stream_start_then_end_round_trip_witness :
  (stream_end_webhook (notification "S")
     (stream_start_webhook (notification "S") 105 one_room).2).2 = one_room.
Proof.
  apply (stream_start_then_end_round_trip (notification "S") (notification "S") 105
           one_room); [reflexivity|apply one_room_idle].
Defined.

(** ** The playback URL *)

(** X10: [get_room_stream_url] agrees with [get_room]: it raises the 404
    error exactly when [get_room] does, and otherwise reports the same
    title and [is_active] flag, with the HLS path built from the stream key
    that [get_room] reports. *)
Theorem stream_url_agrees_with_get_room qr room_id st :
  match (get_room qr room_id st).1 with
  | inr found =>
      (get_room_stream_url room_id st).1 =
      inr (StreamUrl.mk room_id
             ("/broadcast/client/hls/" +:+ RoomResponse.stream_key found +:+ ".m3u8")
             (RoomResponse.is_active found) (RoomResponse.title found))
  | inl e =>
      e = HTTPException 404 "Room not found" ∧
      (get_room_stream_url room_id st).1 = inl e
  end.
Proof.
  rewrite get_room_run, get_room_stream_url_run. cbn [fst].
  by destruct (getitem room_id (rooms_db st)).
Qed.

(** ** The URLs handed out *)

Lemma string_app_length (s1 s2 : string) :
  String.length (s1 +:+ s2) = String.length s1 + String.length s2.
Proof. induction s1 as [|a s1 IH]; simpl; [done|]. by rewrite IH. Qed.

Lemma string_app_inj_r (s1 s2 t : string) : s1 +:+ t = s2 +:+ t → s1 = s2.
Proof.
  revert s2. induction s1 as [|a s1 IH]; intros [|b s2] Heq; simpl in Heq.
  - done.
  - apply (f_equal String.length) in Heq.
    rewrite !string_app_length in Heq. simpl in Heq. lia.
  - apply (f_equal String.length) in Heq.
    rewrite !string_app_length in Heq. simpl in Heq. lia.
  - injection Heq as -> Heq. f_equal. by apply IH.
Qed.

(** X11: the URLs identify what they were built from. For two rooms of the
    registry, equal viewer URLs mean the same room identifier, and equal
    RTMP URLs, or equal HLS paths, mean the same stream key. *)
Theorem urls_identify_rooms qr st id1 id2 found1 found2 url1 url2 :
  (get_room qr id1 st).1 = inr found1 →
  (get_room qr id2 st).1 = inr found2 →
  (get_room_stream_url id1 st).1 = inr url1 →
  (get_room_stream_url id2 st).1 = inr url2 →
  (RoomResponse.viewer_url found1 = RoomResponse.viewer_url found2 → id1 = id2) ∧
  (RoomResponse.rtmp_url found1 = RoomResponse.rtmp_url found2 →
     RoomResponse.stream_key found1 = RoomResponse.stream_key found2) ∧
  (StreamUrl.hls_url url1 = StreamUrl.hls_url url2 →
     RoomResponse.stream_key found1 = RoomResponse.stream_key found2).
Proof.
  rewrite !get_room_run, !get_room_stream_url_run. cbn [fst].
  destruct (getitem id1 (rooms_db st)) as [r1|]; [|done].
  destruct (getitem id2 (rooms_db st)) as [r2|]; [|done].
  intros [= <-] [= <-] [= <-] [= <-]. cbn. split_and!.
  - intros Heq. by simplify_eq.
  - intros Heq. by simplify_eq.
  - intros Heq. apply (string_app_inj_r _ _ ".m3u8"). by simplify_eq.
Qed.

Lemma urls_identify_rooms_witness :
  let found1 := RoomResponse.mk "R" "S" "Morning Jazz" (rtmp_url_of "S")
                  (viewer_url_of "R") (sample_qr (viewer_url_of "R")) 100 true 0 in
  let found2 := RoomResponse.mk "R2" "S2" "Evening News" (rtmp_url_of "S2")
                  (viewer_url_of "R2") (sample_qr (viewer_url_of "R2")) 200 false 0 in
  let url1 := StreamUrl.mk "R" "/broadcast/client/hls/S.m3u8" true "Morning Jazz" in
  let url2 := StreamUrl.mk "R2" "/broadcast/client/hls/S2.m3u8" false "Evening News" in
  (RoomResponse.viewer_url found1 = RoomResponse.viewer_url found2 → "R" = "R2") ∧
  (RoomResponse.rtmp_url found1 = RoomResponse.rtmp_url found2 →
     RoomResponse.stream_key found1 = RoomResponse.stream_key found2) ∧
  (StreamUrl.hls_url url1 = StreamUrl.hls_url url2 →
     RoomResponse.stream_key found1 = RoomResponse.stream_key found2).
Proof.
  intros found1 found2 url1 url2.
  apply (urls_identify_rooms sample_qr two_rooms "R" "R2" found1 found2 url1 url2);
    reflexivity.
Defined.

(** ** The listing *)

Lemma getitem_elem_of_wf {V} key (v : V) (d : dict V) :
  dict_wf d → (key, v) ∈ d → getitem key d = Some v.
Proof.
  unfold dict_wf. induction d as [|[k w] d IH]; simpl.
  - by intros _ ?%elem_of_nil.
  - rewrite NoDup_cons. intros [Hk Hd] [Heq|Hin]%elem_of_cons.
    + simplify_eq. by rewrite decide_True.
    + destruct (decide (k = key)) as [->|_]; [|by apply IH].
      destruct Hk. by apply (list_elem_of_fmap_2 fst) in Hin.
Qed.

Lemma getitem_elem_of {V} key (v : V) (d : dict V) :
  getitem key d = Some v → (key, v) ∈ d.
Proof. intros (j & Hj & _)%getitem_Some. by eapply list_elem_of_lookup_2. Qed.

(** X12: in a registry where every room is stored once under its own
    identifier, the listing and [get_room] agree: every entry of the
    listing names a room that [get_room] finds with the same title,
    creation time, [is_active] flag and viewer count, and every room that
    [get_room] finds has such an entry. *)
Theorem listing_agrees_with_get_room qr st summaries :
  room_ids_unique st →
  (list_rooms st).1 = inr summaries →
  (∀ s, s ∈ summaries →
     ∃ found, (get_room qr (RoomSummary.room_id s) st).1 = inr found ∧
       RoomSummary.mk (RoomResponse.room_id found) (RoomResponse.title found)
         (RoomResponse.created_at found) (RoomResponse.is_active found)
         (RoomResponse.viewer_count found) = s) ∧
  (∀ room_id found, (get_room qr room_id st).1 = inr found →
     RoomResponse.room_id found = room_id ∧
     RoomSummary.mk room_id (RoomResponse.title found)
       (RoomResponse.created_at found) (RoomResponse.is_active found)
       (RoomResponse.viewer_count found) ∈ summaries).
Proof.
  intros [Hwf Hown] [= <-]. split.
  - intros s (r & -> & Hr)%list_elem_of_fmap. unfold values in Hr.
    apply list_elem_of_fmap in Hr as ([k r'] & -> & Hin). simpl.
    pose proof (proj1 (Forall_forall _ _) Hown _ Hin) as Hid. simpl in Hid.
    rewrite get_room_run, Hid, (getitem_elem_of_wf k r' _ Hwf Hin).
    eexists. split; [done|]. cbn. by rewrite Hid.
  - intros room_id found. rewrite get_room_run. cbn [fst].
    destruct (getitem room_id (rooms_db st)) as [r|] eqn:Hget; [|done].
    intros [= <-]. apply getitem_elem_of in Hget.
    pose proof (proj1 (Forall_forall _ _) Hown _ Hget) as Hid. simpl in *.
    split; [done|]. rewrite <-Hid.
    apply list_elem_of_fmap. exists r. split; [done|].
    unfold values. by apply (list_elem_of_fmap_2 snd) in Hget.
Qed.

Lemma two_rooms_unique : room_ids_unique two_rooms ∧ stream_keys_unique two_rooms.
Proof.
  apply run_unique; [|apply initial_state_unique..].
  repeat split; try apply not_elem_of_nil.
  all: vm_compute; intros Hin; apply list_elem_of_singleton in Hin; discriminate.
Qed.

Lemma listing_agrees_with_get_room_witness :
  ∃ found, (get_room sample_qr "R2" two_rooms).1 = inr found ∧
    RoomSummary.mk (RoomResponse.room_id found) (RoomResponse.title found)
      (RoomResponse.created_at found) (RoomResponse.is_active found)
      (RoomResponse.viewer_count found) =
    RoomSummary.mk "R2" "Evening News" 200 false 0.
Proof.
  apply (proj1 (listing_agrees_with_get_room sample_qr two_rooms
                  [RoomSummary.mk "R" "Morning Jazz" 100 true 0;
                   RoomSummary.mk "R2" "Evening News" 200 false 0]
                  (proj1 two_rooms_unique) eq_refl)
           (RoomSummary.mk "R2" "Evening News" 200 false 0)).
  apply list_elem_of_further, list_elem_of_here.
Defined.

(** X13: the listing is in creation order: a creation whose identifier is
    not yet in the registry adds its room, inactive and without viewers,
    at the end of the listing and leaves the entries before it as they
    were. *)
Theorem create_room_appends_to_listing qr uuid4 token utcnow request st :
  contains uuid4 (rooms_db st) = false →
  ∃ before,
    (list_rooms st).1 = inr before ∧
    (list_rooms (create_room qr uuid4 token utcnow request st).2).1 =
    inr (before ++
         [RoomSummary.mk uuid4 (CreateRoomRequest.title request) utcnow false 0]).
Proof.
  intros Hnew%contains_false. eexists. split; [done|].
  rewrite create_room_run. cbn [snd].
  unfold list_rooms, mbind, Handler_bind, read_rooms, mret, Handler_ret.
  cbn [fst rooms_db]. rewrite setitem_fresh by done.
  unfold values. by rewrite !fmap_app.
Qed.

Lemma create_room_appends_to_listing_witness :
  ∃ before,
    (list_rooms one_room).1 = inr before ∧
    (list_rooms (create_room sample_qr "R2" "S2" 200 evening_news one_room).2).1 =
    inr (before ++ [RoomSummary.mk "R2" "Evening News" 200 false 0]).
Proof.
  apply (create_room_appends_to_listing sample_qr "R2" "S2" 200 evening_news one_room).
  reflexivity.
Defined.

(** ** Invariants of the session table *)

Lemma step_no_nameless_session qr op st :
  active_streams st !! None = None → active_streams (step qr st op) !! None = None.
Proof.
  intros Hnone. destruct op as
    [uuid4 token utcnow request|room_id| |room_id|request utcnow|request|k|room_id];
    cbn [step].
  - by rewrite create_room_run.
  - by rewrite get_room_run.
  - done.
  - rewrite delete_room_run. by destruct (contains _ _).
  - rewrite stream_start_webhook_run. cbn [snd].
    destruct (fst <$> find_room _ _) as [i|] eqn:Hfind; [|done].
    apply find_room_index_Some in Hfind as (e & _ & Hkey). cbn [active_streams].
    rewrite lookup_insert_ne; [done|]. by rewrite <-Hkey.
  - rewrite stream_end_webhook_run. cbn [snd].
    destruct (fst <$> find_room _ _) as [i|] eqn:Hfind; [|done].
    apply find_room_index_Some in Hfind as (e & _ & Hkey). cbn [active_streams].
    rewrite lookup_delete_ne; [done|]. by rewrite <-Hkey.
  - by rewrite get_stream_status_run.
  - by rewrite get_room_stream_url_state.
Qed.

(** X14: no sequence of requests creates a session record without a
    stream key: after every run from the initial state, however many
    webhook calls lacked the [name] field, the session table has no record
    under Python's [None]. *)
Theorem no_session_without_name qr ops :
  active_streams (run qr ops initial_state) !! None = None.
Proof.
  assert (∀ st, active_streams st !! None = None →
                active_streams (run qr ops st) !! None = None) as Hrun.
  { induction ops as [|op ops IH]; intros st Hnone; [done|].
    simpl. by apply IH, step_no_nameless_session. }
  by apply Hrun.
Qed.

Lemma values_mutate_elem b i (rooms : dict Room.t) r :
  r ∈ values (mutate_value (Room.set_is_active b) i rooms) →
  (∃ r0, values rooms !! i = Some r0 ∧ r = Room.set_is_active b r0) ∨
  (∃ j, j ≠ i ∧ values rooms !! j = Some r).
Proof.
  rewrite mutate_value_values. intros [j Hj]%list_elem_of_lookup.
  destruct (decide (i = j)) as [<-|Hne].
  - left. rewrite list_lookup_alter_eq in Hj.
    destruct (values rooms !! i) as [r0|]; simplify_eq/=. eauto.
  - right. rewrite list_lookup_alter_ne in Hj by done. eauto.
Qed.

Lemma step_active_rooms_have_sessions qr op st :
  match op with
  | CreateRoom uuid4 token _ _ => fresh_ids uuid4 token st
  | _ => True
  end →
  stream_keys_unique st →
  active_rooms_have_sessions st →
  active_rooms_have_sessions (step qr st op).
Proof.
  intros Hfresh Hkeys Hinv. destruct op as
    [uuid4 token utcnow request|room_id| |room_id|request utcnow|request|k|room_id];
    cbn [step].
  - rewrite create_room_run. cbn [snd]. intros r Hr Hactive.
    cbn [rooms_db active_streams] in *.
    rewrite setitem_fresh in Hr by apply Hfresh. unfold values in Hr.
    rewrite fmap_app in Hr. apply elem_of_app in Hr as [Hr|Hr].
    + by apply Hinv.
    + apply list_elem_of_singleton in Hr as ->. done.
  - by rewrite get_room_run.
  - done.
  - rewrite delete_room_run. destruct (contains _ _); cbn [snd]; [|done].
    intros r Hr Hactive. cbn [rooms_db active_streams] in *.
    apply Hinv; [|done]. unfold values, delitem in *.
    apply list_elem_of_fmap in Hr as (e & -> & [_ He]%list_elem_of_filter).
    by apply list_elem_of_fmap_2.
  - rewrite stream_start_webhook_run. cbn [snd].
    destruct (fst <$> find_room _ _) as [i|] eqn:Hfind; [|done].
    apply find_room_index_Some in Hfind as (e & Hi & Hkey).
    intros r Hr Hactive. cbn [rooms_db active_streams] in *.
    apply lookup_insert_is_Some'.
    apply values_mutate_elem in Hr as [(r0 & Hr0 & ->)|(j & _ & Hj)].
    + left. unfold values in Hr0. rewrite list_lookup_fmap, Hi in Hr0.
      by simplify_eq/=.
    + right. apply Hinv; [|done]. by eapply list_elem_of_lookup_2.
  - rewrite stream_end_webhook_run. cbn [snd].
    destruct (fst <$> find_room _ _) as [i|] eqn:Hfind; [|done].
    apply find_room_index_Some in Hfind as (e & Hi & Hkey).
    intros r Hr Hactive. cbn [rooms_db active_streams] in *.
    apply values_mutate_elem in Hr as [(r0 & Hr0 & ->)|(j & Hne & Hj)]; [done|].
    rewrite lookup_delete_ne.
    + apply Hinv; [|done]. by eapply list_elem_of_lookup_2.
    + rewrite <-Hkey. intros [= Heq]. apply Hne.
      apply (NoDup_lookup _ j i (Room.stream_key r) Hkeys).
      * by rewrite list_lookup_fmap, Hj.
      * unfold values. rewrite !list_lookup_fmap, Hi. simpl. by rewrite Heq.
  - by rewrite get_stream_status_run.
  - by rewrite get_room_stream_url_state.
Qed.

Lemma run_active_rooms_have_sessions qr ops st :
  fresh_run qr ops st →
  room_ids_unique st → stream_keys_unique st →
  active_rooms_have_sessions st →
  active_rooms_have_sessions (run qr ops st).
Proof.
  revert st. induction ops as [|op ops IH]; intros st; simpl; [done|].
  intros [Hop Hrest] Hids Hkeys Hinv.
  destruct (step_unique qr op st Hop Hids Hkeys) as [??].
  apply IH; [done..|]. by apply step_active_rooms_have_sessions.
Qed.

(** X15: the registry never claims more than the tracker: after every run
    from the initial state whose creations draw fresh identifiers, a room
    that [get_room] reports active has a session record, so that the
    status query for its stream key reports it active with a start
    time. *)
Theorem active_rooms_are_reported_publishing qr ops room_id found :
  fresh_run qr ops initial_state →
  let st := run qr ops initial_state in
  (get_room qr room_id st).1 = inr found →
  RoomResponse.is_active found = true →
  ∃ started_at,
    (get_stream_status (RoomResponse.stream_key found) st).1 =
    inr (StreamStatus.mk (RoomResponse.stream_key found) true (Some started_at)).
Proof.
  intros Hfresh st. rewrite get_room_run. cbn [fst].
  destruct (getitem room_id (rooms_db st)) as [r|] eqn:Hget; [|done].
  intros [= <-] Hactive. unfold room_response in *.
  cbn [RoomResponse.is_active RoomResponse.stream_key] in *.
  assert (active_rooms_have_sessions st) as Hinv.
  { apply run_active_rooms_have_sessions;
      [done|apply initial_state_unique..|]. by intros r' ?%elem_of_nil. }
  destruct (Hinv r) as [t Ht]; [|done|].
  - unfold values. apply getitem_elem_of in Hget.
    by apply (list_elem_of_fmap_2 snd) in Hget.
  - exists t. rewrite get_stream_status_run. cbn [fst]. rewrite Ht.
    by rewrite bool_decide_eq_true_2 by done.
Qed.

Lemma active_rooms_are_reported_publishing_witness :
  ∃ started_at,
    (get_stream_status "S" two_rooms).1 =
    inr (StreamStatus.mk "S" true (Some started_at)).
Proof.
  apply (active_rooms_are_reported_publishing sample_qr
           [CreateRoom "R" "S" 100 morning_jazz;
            CreateRoom "R2" "S2" 200 evening_news;
            StreamStart (notification "S") 205]
           "R"
           (RoomResponse.mk "R" "S" "Morning Jazz" (rtmp_url_of "S")
              (viewer_url_of "R") (sample_qr (viewer_url_of "R")) 100 true 0));
    [|reflexivity|reflexivity].
  repeat split; try apply not_elem_of_nil.
  all: vm_compute; intros Hin; apply list_elem_of_singleton in Hin; discriminate.
Defined.

(** ** Notifications after a deletion *)

Lemma unique_key_same_entry st (e e' : string * Room.t) :
  stream_keys_unique st →
  e ∈ rooms_db st → e' ∈ rooms_db st →
  Room.stream_key e.2 = Room.stream_key e'.2 → e = e'.
Proof.
  intros Hkeys [i Hi]%list_elem_of_lookup [j Hj]%list_elem_of_lookup Heq.
  assert (i = j) as ->; [|congruence].
  apply (NoDup_lookup _ i j (Room.stream_key e.2) Hkeys); unfold values.
  - by rewrite !list_lookup_fmap, Hi.
  - rewrite !list_lookup_fmap, Hj. simpl. by rewrite Heq.
Qed.

(** X16: deleting a room retires its stream key: in a registry with unique
    stream keys, once the room is deleted both webhooks answer ok for its
    key and change nothing, so a publisher still holding the key can
    neither start nor end a session. *)
Theorem deleted_room_ignores_notifications room_id room request utcnow st :
  stream_keys_unique st →
  getitem room_id (rooms_db st) = Some room →
  form request !! "name" = Some (Room.stream_key room) →
  let st' := (delete_room room_id st).2 in
  stream_start_webhook request utcnow st' = (inr ok_response, st') ∧
  stream_end_webhook request st' = (inr ok_response, st').
Proof.
  intros Hkeys Hget Hname st'.
  assert (¬ owned (Room.stream_key room) st') as Hno.
  { subst st'. rewrite delete_room_run.
    assert (contains room_id (rooms_db st) = true) as ->.
    { apply contains_true, getitem_is_Some. eauto. }
    cbn [snd]. intros (r & Hr & Hk). cbn [rooms_db] in Hr.
    unfold values, delitem in Hr.
    apply list_elem_of_fmap in Hr as (e & -> & [Hne He]%list_elem_of_filter).
    apply getitem_elem_of in Hget.
    pose proof (unique_key_same_entry st e (room_id, room) Hkeys He Hget Hk) as ->.
    by apply Hne. }
  split.
  - by apply (stream_start_not_owned request utcnow (Room.stream_key room)).
  - by apply (stream_end_not_owned request (Room.stream_key room)).
Qed.

Lemma deleted_room_ignores_notifications_witness :
  let st' := (delete_room "R" two_rooms).2 in
  stream_start_webhook (notification "S") 300 st' = (inr ok_response, st') ∧
  stream_end_webhook (notification "S") st' = (inr ok_response, st').
Proof.
  apply (deleted_room_ignores_notifications "R"
           (Room.mk "R" "S" "Morning Jazz" 100 true 0) (notification "S") 300
           two_rooms); [apply two_rooms_unique|reflexivity|reflexivity].
Defined.

(** ** Other keys, and what no request changes *)

(** X17: a notification changes the session of its own key only: for every
    stream key other than the notified one, the status query answers after
    a start or an end notification what it answered before. *)
Theorem webhooks_leave_other_sessions request utcnow other st :
  form request !! "name" ≠ Some other →
  (get_stream_status other (stream_start_webhook request utcnow st).2).1 =
    (get_stream_status other st).1 ∧
  (get_stream_status other (stream_end_webhook request st).2).1 =
    (get_stream_status other st).1.
Proof.
  intros Hne. rewrite !get_stream_status_run.
  rewrite stream_start_webhook_run, stream_end_webhook_run. cbn [fst snd].
  destruct (fst <$> find_room _ _) as [i|]; [|done]. cbn [active_streams].
  by rewrite lookup_insert_ne, lookup_delete_ne.
Qed.

Lemma webhooks_leave_other_sessions_witness :
  (get_stream_status "S" (stream_start_webhook (notification "S2") 300 two_rooms).2).1 =
    (get_stream_status "S" two_rooms).1 ∧
  (get_stream_status "S" (stream_end_webhook (notification "S2") two_rooms).2).1 =
    (get_stream_status "S" two_rooms).1.
Proof.
  apply (webhooks_leave_other_sessions (notification "S2") 300 "S" two_rooms).
  discriminate.
Defined.

(** Each stored room carries the key it is stored under and no viewers. *)
Lemma step_rooms_well_formed qr op st :
  Forall (λ e, Room.room_id e.2 = e.1 ∧ Room.viewer_count e.2 = 0%Z) (rooms_db st) →
  Forall (λ e, Room.room_id e.2 = e.1 ∧ Room.viewer_count e.2 = 0%Z)
    (rooms_db (step qr st op)).
Proof.
  intros Hwf. destruct op as
    [uuid4 token utcnow request|room_id| |room_id|request utcnow|request|k|room_id];
    cbn [step].
  - rewrite create_room_run. cbn [snd rooms_db]. by apply setitem_Forall.
  - by rewrite get_room_run.
  - done.
  - rewrite delete_room_run. destruct (contains _ _); cbn [snd rooms_db]; [|done].
    apply Forall_forall. intros e [_ He]%list_elem_of_filter.
    by apply (proj1 (Forall_forall _ _) Hwf).
  - rewrite stream_start_webhook_run. cbn [snd].
    destruct (fst <$> find_room _ _); [|done]. cbn [rooms_db].
    apply Forall_alter; [done|]. by intros [??] _.
  - rewrite stream_end_webhook_run. cbn [snd].
    destruct (fst <$> find_room _ _); [|done]. cbn [rooms_db].
    apply Forall_alter; [done|]. by intros [??] _.
  - by rewrite get_stream_status_run.
  - by rewrite get_room_stream_url_state.
Qed.

(** X18: after every run from the initial state, whatever identifiers the
    creations drew, a successful [get_room] answers with the identifier
    that was asked for and with a viewer count of zero: no request ever
    changes a viewer count. *)
Theorem get_room_answers_own_id_and_no_viewers qr ops room_id found :
  (get_room qr room_id (run qr ops initial_state)).1 = inr found →
  RoomResponse.room_id found = room_id ∧ RoomResponse.viewer_count found = 0%Z.
Proof.
  assert (∀ st,
    Forall (λ e, Room.room_id e.2 = e.1 ∧ Room.viewer_count e.2 = 0%Z) (rooms_db st) →
    Forall (λ e, Room.room_id e.2 = e.1 ∧ Room.viewer_count e.2 = 0%Z)
      (rooms_db (run qr ops st))) as Hrun.
  { induction ops as [|op ops IH]; intros st Hwf; [done|].
    simpl. by apply IH, step_rooms_well_formed. }
  specialize (Hrun initial_state (Forall_nil_2 _)).
  rewrite get_room_run. cbn [fst].
  destruct (getitem room_id _) as [r|] eqn:Hget; [|done].
  intros [= <-]. apply getitem_elem_of in Hget.
  apply (proj1 (Forall_forall _ _) Hrun) in Hget. done.
Qed.

Lemma get_room_answers_own_id_and_no_viewers_witness :
  RoomResponse.room_id
    (RoomResponse.mk "R2" "S2" "Evening News" (rtmp_url_of "S2")
       (viewer_url_of "R2") (sample_qr (viewer_url_of "R2")) 200 false 0) = "R2" ∧
  RoomResponse.viewer_count
    (RoomResponse.mk "R2" "S2" "Evening News" (rtmp_url_of "S2")
       (viewer_url_of "R2") (sample_qr (viewer_url_of "R2")) 200 false 0) = 0%Z.
Proof.
  apply (get_room_answers_own_id_and_no_viewers sample_qr busy_day "R2").
  reflexivity.
Defined.

(** ** Going live *)

(** X19: a room can go live as soon as it is created: when the creation
    drew fresh identifiers, a start notification for the returned stream
    key makes [get_room] of the returned identifier report the room active
    and the status query report the key active since the notification. *)
Theorem created_room_goes_live qr uuid4 token t0 t1 request started st :
  fresh_ids uuid4 token st →
  form started !! "name" = Some token →
  let st1 := (create_room qr uuid4 token t0 request st).2 in
  let st2 := (stream_start_webhook started t1 st1).2 in
  (∃ found, (get_room qr uuid4 st2).1 = inr found ∧
            RoomResponse.stream_key found = token ∧
            RoomResponse.title found = CreateRoomRequest.title request ∧
            RoomResponse.is_active found = true) ∧
  (get_stream_status token st2).1 = inr (StreamStatus.mk token true (Some t1)).
Proof.
  intros [Hid Hkey] Hname st1 st2.
  set (room := Room.mk uuid4 token (CreateRoomRequest.title request) t0 false 0).
  set (i := length (rooms_db st)).
  assert (rooms_db st1 = rooms_db st ++ [(uuid4, room)]) as Hrooms1.
  { subst st1. rewrite create_room_run. cbn [snd rooms_db]. by apply setitem_fresh. }
  assert (rooms_db st1 !! i = Some (uuid4, room)) as Hi.
  { rewrite Hrooms1. subst i. by rewrite lookup_app_r, Nat.sub_diag by lia. }
  assert (∀ j e, j < i → rooms_db st1 !! j = Some e →
                 e.1 ≠ uuid4 ∧ Room.stream_key e.2 ≠ token) as Hbefore.
  { intros j e Hlt Hj. rewrite Hrooms1, lookup_app_l in Hj by done.
    apply list_elem_of_lookup_2 in Hj. split.
    - intros <-. apply Hid. by apply (list_elem_of_fmap_2 fst) in Hj.
    - intros <-. apply Hkey. unfold values.
      by apply list_elem_of_fmap_2, (list_elem_of_fmap_2 snd). }
  assert (fst <$> find_room (Some token) (rooms_db st1) = Some i) as Hfind.
  { assert (find_room (Some token) (rooms_db st1) = Some (i, room)) as ->; [|done].
    apply find_room_Some. split_and!; [|done|].
    - unfold values. by rewrite list_lookup_fmap, Hi.
    - intros j r' Hj Hlt. unfold values in Hj.
      apply list_lookup_fmap_Some in Hj as (e & -> & Hj).
      intros [= Heq]. by destruct (Hbefore j e Hlt Hj). }
  assert (st2 = mkState (mutate_value (Room.set_is_active true) i (rooms_db st1))
                        (<[Some token := t1]> (active_streams st1))) as ->.
  { subst st2. by rewrite stream_start_webhook_run, Hname, Hfind. }
  split.
  - destruct (getitem_mutate_value_first (Room.set_is_active true) i uuid4 room
                (rooms_db st1) Hi) as (Hget & _ & _).
    { intros j e Hlt Hj. by destruct (Hbefore j e Hlt Hj). }
    rewrite get_room_run. cbn [fst rooms_db]. rewrite Hget. eauto.
  - rewrite get_stream_status_run. cbn [fst active_streams].
    rewrite lookup_insert_eq. by rewrite bool_decide_eq_true_2 by done.
Qed.

Lemma created_room_goes_live_witness :
  let st1 := (create_room sample_qr "R3" "S3" 300 morning_jazz two_rooms).2 in
  let st2 := (stream_start_webhook (notification "S3") 305 st1).2 in
  (∃ found, (get_room sample_qr "R3" st2).1 = inr found ∧
            RoomResponse.stream_key found = "S3" ∧
            RoomResponse.title found = CreateRoomRequest.title morning_jazz ∧
            RoomResponse.is_active found = true) ∧
  (get_stream_status "S3" st2).1 = inr (StreamStatus.mk "S3" true (Some 305%Z)).
Proof.
  apply (created_room_goes_live sample_qr "R3" "S3" 300 305 morning_jazz
           (notification "S3") two_rooms); [|reflexivity].
  split; vm_compute; intros Hin.
  - apply elem_of_cons in Hin as [?|Hin]; [discriminate|].
    apply list_elem_of_singleton in Hin. discriminate.
  - apply elem_of_cons in Hin as [?|Hin]; [discriminate|].
    apply list_elem_of_singleton in Hin. discriminate.
Defined.
